(** * The DM14 memory-access session coordinator ([j1939/memory_access.py])

    A shallow embedding of class [MemoryAccess] and of the enumeration
    [DMState].  The three objects the class drives, the controller
    application [_ca], the query builder [query] and the responder [server],
    live in other modules of the package; they enter the development through
    the interface [Collaborators].  Methods are written in a state and
    exception monad over a [World] that holds the attributes of the object,
    the state of its collaborators and a log of every call that leaves the
    object. *)

From Stdlib Require Import ZArith List String Bool.
From Stdlib Require Import Strings.Byte.
Import ListNotations.
Open Scope Z_scope.

(** ** Data *)

(** [class DMState(Enum)]. *)
Inductive DMState : Type :=
| IDLE
| REQUEST_STARTED
| WAIT_RESPONSE
| WAIT_QUERY.

(** The integer the enumeration gives each member. *)
Definition DMState_value (s : DMState) : Z :=
  match s with
  | IDLE => 1
  | REQUEST_STARTED => 2
  | WAIT_RESPONSE => 3
  | WAIT_QUERY => 4
  end.

(** [==] on members of the enumeration. *)
Definition DMState_eqb (a b : DMState) : bool :=
  DMState_value a =? DMState_value b.

(** An argument with a default in the signature: [None] is the argument left
    out by the caller. *)
Definition arg_or {A : Type} (dflt : A) (given : option A) : A :=
  match given with
  | Some a => a
  | None => dflt
  end.

(** ** Collaborators *)

(** Modelled from the spec: the classes [j1939.ControllerApplication],
    [j1939.Dm14Query] and [j1939.DM14Server] are defined outside this module,
    so the operations [MemoryAccess] calls on them are the fields of an
    interface.  The shape of each field follows the contract of the
    collaborator: [subscribe], [unsubscribe], the parser, [set_busy] and the
    configuration setters return nothing, whereas the query builder's [read]
    and [write] and the responder's [respond] perform an exchange that
    returns a value or raises.

    [Ext] is everything these objects own (they share the controller
    application), [Err] the errors their exchanges may raise, [Callable] the
    functions the application hands in.  [ca_subscribe] and [ca_unsubscribe]
    are the calls made with the bound method [self._listen_for_dm14] as
    argument. *)
Class Collaborators (Ext Err Callable : Type) : Type := {
  Dm14Query_new : Ext -> Ext;
  DM14Server_new : Ext -> Ext;
  ca_subscribe : Ext -> Ext;
  ca_unsubscribe : Ext -> Ext;
  server_parse_dm14 : Z -> Z -> Z -> Z -> list byte -> Ext -> Ext;
  (** [server.state == j1939.ResponseState.SEND_PROCEED] *)
  server_state_is_SEND_PROCEED : Ext -> bool;
  server_set_busy : bool -> Ext -> Ext;
  server_respond : bool -> list Z -> Z -> Z -> Ext -> (Err + list Z) * Ext;
  server_set_seed_generator : Callable -> Ext -> Ext;
  server_set_seed_key_algorithm : Callable -> Ext -> Ext;
  query_read :
    Z -> Z -> Z -> Z -> Z -> bool -> bool -> Ext -> (Err + list Z) * Ext;
  query_write : Z -> Z -> Z -> list Z -> Z -> Ext -> (Err + unit) * Ext;
  query_set_seed_key_algorithm : Callable -> Ext -> Ext
}.

Section Coordinator.

Context {Ext Err Callable : Type} {collab : Collaborators Ext Err Callable}.

(** The attributes of a [MemoryAccess] object other than the references
    [_ca], [query] and [server].  [address] does not exist before the first
    [read] or [write]. *)
Record MemoryAccess : Type := mkMemoryAccess {
  state : DMState;
  seed_security : bool;
  _notify_query_received : option Callable;
  _seed_key_valid : option Callable;
  _proceed_function : option Callable;
  address : option Z
}.

Definition with_state (s : DMState) (m : MemoryAccess) : MemoryAccess :=
  mkMemoryAccess s (seed_security m) (_notify_query_received m)
    (_seed_key_valid m) (_proceed_function m) (address m).

Definition with_address (a : Z) (m : MemoryAccess) : MemoryAccess :=
  mkMemoryAccess (state m) (seed_security m) (_notify_query_received m)
    (_seed_key_valid m) (_proceed_function m) (Some a).

Definition with_seed_security (b : bool) (m : MemoryAccess) : MemoryAccess :=
  mkMemoryAccess (state m) b (_notify_query_received m)
    (_seed_key_valid m) (_proceed_function m) (address m).

Definition with_notify (f : Callable) (m : MemoryAccess) : MemoryAccess :=
  mkMemoryAccess (state m) (seed_security m) (Some f)
    (_seed_key_valid m) (_proceed_function m) (address m).

(** A call that leaves the object. *)
Inductive Call : Type :=
| CallQueryNew
| CallServerNew
| CallSubscribe
| CallUnsubscribe
| CallParse (priority pgn sa timestamp : Z) (data : list byte)
| CallSetBusy (busy : bool)
| CallRespond (proceed : bool) (data : list Z) (error edcp : Z)
| CallSetSeedGenerator (f : Callable)
| CallServerSetAlgorithm (f : Callable)
| CallQuerySetAlgorithm (f : Callable)
| CallQueryRead (dest_address direct address object_count object_byte_size : Z)
    (signed return_raw_bytes : bool)
| CallQueryWrite (dest_address direct address : Z) (values : list Z)
    (object_byte_size : Z)
| CallNotify (f : Callable).

(** What the object looked like when a call was made. *)
Inductive Snapshot : Type :=
| Constructing
| At (m : MemoryAccess).

Record World : Type := mkWorld {
  self : MemoryAccess;
  ext : Ext;
  calls : list (Snapshot * Call)
}.

(** ** The monad of methods *)

Inductive Exn : Type :=
| RuntimeWarning (msg : string)
| CollaboratorError (e : Err).

Inductive Outcome (A : Type) : Type :=
| Returned (a : A)
| Raised (e : Exn).
Arguments Returned {A} a.
Arguments Raised {A} e.

Definition M (A : Type) : Type := World -> Outcome A * World.

Definition ret {A : Type} (a : A) : M A := fun w => (Returned a, w).

Definition bind {A B : Type} (c : M A) (k : A -> M B) : M B :=
  fun w =>
    match c w with
    | (Returned a, w') => k a w'
    | (Raised e, w') => (Raised e, w')
    end.

Definition raise {A : Type} (e : Exn) : M A := fun w => (Raised e, w).

Notation "x <- c ;; k" := (bind c (fun x => k))
  (at level 61, c at next level, right associativity).
Notation "c ;; k" := (bind c (fun _ => k))
  (at level 61, right associativity).

Definition get_self : M MemoryAccess := fun w => (Returned (self w), w).

Definition update_self (f : MemoryAccess -> MemoryAccess) : M unit :=
  fun w => (Returned tt, mkWorld (f (self w)) (ext w) (calls w)).

Definition logged (c : Call) (w : World) : list (Snapshot * Call) :=
  calls w ++ [(At (self w), c)].

(** A collaborator's method that returns nothing and does not raise. *)
Definition call_ext (c : Call) (f : Ext -> Ext) : M unit :=
  fun w => (Returned tt, mkWorld (self w) (f (ext w)) (logged c w)).

(** A collaborator's method that returns a value or raises. *)
Definition call_ext_result {A : Type} (c : Call) (f : Ext -> (Err + A) * Ext)
  : M A :=
  fun w =>
    let w' := mkWorld (self w) (snd (f (ext w))) (logged c w) in
    match fst (f (ext w)) with
    | inr a => (Returned a, w')
    | inl e => (Raised (CollaboratorError e), w')
    end.

(** Reading an attribute of a collaborator. *)
Definition read_ext {A : Type} (f : Ext -> A) : M A :=
  fun w => (Returned (f (ext w)), w).

(** What a function handed in by the application does when it is called: it
    runs in the same interpreter and may reach every object. *)
Variable application : Callable -> M unit.

Definition call_notify (f : Callable) : M unit :=
  fun w => application f (mkWorld (self w) (ext w) (logged (CallNotify f) w)).

(** ** class MemoryAccess *)

(** [__init__(self, ca)]: [e] is the controller application and what hangs
    off it before the object exists. *)
Definition __init__ (e : Ext) : World :=
  let e1 := Dm14Query_new e in
  let e2 := DM14Server_new e1 in
  let e3 := ca_subscribe e2 in
  mkWorld (mkMemoryAccess IDLE false None None None None) e3
    [(Constructing, CallQueryNew); (Constructing, CallServerNew);
     (Constructing, CallSubscribe)].

Definition notify_if_set : M unit :=
  m <- get_self ;;
  match _notify_query_received m with
  | Some f => call_notify f
  | None => ret tt
  end.

Definition _listen_for_dm14 (priority pgn sa timestamp : Z) (data : list byte)
  : M unit :=
  m <- get_self ;;
  match state m with
  | IDLE =>
      update_self (with_state REQUEST_STARTED) ;;
      call_ext (CallParse priority pgn sa timestamp data)
        (server_parse_dm14 priority pgn sa timestamp data) ;;
      m <- get_self ;;
      if negb (seed_security m) then
        call_ext CallUnsubscribe ca_unsubscribe ;;
        notify_if_set
      else ret tt
  | REQUEST_STARTED =>
      call_ext (CallParse priority pgn sa timestamp data)
        (server_parse_dm14 priority pgn sa timestamp data) ;;
      ready <- read_ext server_state_is_SEND_PROCEED ;;
      if ready then
        update_self (with_state WAIT_RESPONSE) ;;
        notify_if_set
      else ret tt
  | WAIT_QUERY =>
      call_ext (CallSetBusy true) (server_set_busy true) ;;
      call_ext (CallParse priority pgn sa timestamp data)
        (server_parse_dm14 priority pgn sa timestamp data) ;;
      call_ext (CallSetBusy false) (server_set_busy false)
  | _ => ret tt
  end.

Definition respond (proceed : bool) (data : option (list Z))
  (error edcp : option Z) : M (list Z) :=
  let data := match data with None => [] | Some d => d end in
  let error := arg_or 0xFFFFFF error in
  let edcp := arg_or 0xFF edcp in
  call_ext CallUnsubscribe ca_unsubscribe ;;
  update_self (with_state IDLE) ;;
  call_ext_result (CallRespond proceed data error edcp)
    (server_respond proceed data error edcp).

Definition read (dest_address direct address object_count : Z)
  (object_byte_size : option Z) (signed return_raw_bytes : option bool)
  : M (list Z) :=
  let object_byte_size := arg_or 1 object_byte_size in
  let signed := arg_or false signed in
  let return_raw_bytes := arg_or false return_raw_bytes in
  m <- get_self ;;
  if DMState_eqb (state m) IDLE then
    update_self (with_state WAIT_QUERY) ;;
    update_self (with_address dest_address) ;;
    data <- call_ext_result
              (CallQueryRead dest_address direct address object_count
                 object_byte_size signed return_raw_bytes)
              (query_read dest_address direct address object_count
                 object_byte_size signed return_raw_bytes) ;;
    update_self (with_state IDLE) ;;
    ret data
  else raise (RuntimeWarning "Process already Running").

Definition write (dest_address direct address : Z) (values : list Z)
  (object_byte_size : option Z) : M unit :=
  let object_byte_size := arg_or 1 object_byte_size in
  m <- get_self ;;
  if DMState_eqb (state m) IDLE then
    update_self (with_state WAIT_QUERY) ;;
    update_self (with_address dest_address) ;;
    call_ext_result
      (CallQueryWrite dest_address direct address values object_byte_size)
      (query_write dest_address direct address values object_byte_size) ;;
    update_self (with_state IDLE)
  else ret tt.

Definition set_seed_generator (seed_generator : Callable) : M unit :=
  call_ext (CallSetSeedGenerator seed_generator)
    (server_set_seed_generator seed_generator).

Definition set_seed_key_algorithm (algorithm : Callable) : M unit :=
  update_self (with_seed_security true) ;;
  call_ext (CallQuerySetAlgorithm algorithm)
    (query_set_seed_key_algorithm algorithm) ;;
  call_ext (CallServerSetAlgorithm algorithm)
    (server_set_seed_key_algorithm algorithm).

Definition set_notify (notify : Callable) : M unit :=
  update_self (with_notify notify).

(** ** Observations on a run *)

(** How often the log shows the notification callback being called. *)
Fixpoint count_notify (l : list (Snapshot * Call)) : nat :=
  match l with
  | [] => O
  | (_, CallNotify _) :: l' => S (count_notify l')
  | _ :: l' => count_notify l'
  end.

(** Everything that can happen to a constructed object: the controller
    application delivers a message, or the application calls a public
    method. *)
Inductive Op : Type :=
| OpDeliver (priority pgn sa timestamp : Z) (data : list byte)
| OpRespond (proceed : bool) (data : option (list Z)) (error edcp : option Z)
| OpRead (dest_address direct address object_count : Z)
    (object_byte_size : option Z) (signed return_raw_bytes : option bool)
| OpWrite (dest_address direct address : Z) (values : list Z)
    (object_byte_size : option Z)
| OpSetSeedGenerator (f : Callable)
| OpSetSeedKeyAlgorithm (f : Callable)
| OpSetNotify (f : Callable).

(** The world an operation leaves behind, whether it returned or raised. *)
Definition after (o : Op) (w : World) : World :=
  match o with
  | OpDeliver p g s t d => snd (_listen_for_dm14 p g s t d w)
  | OpRespond p d e x => snd (respond p d e x w)
  | OpRead a b c n z sg rw => snd (read a b c n z sg rw w)
  | OpWrite a b c v z => snd (write a b c v z w)
  | OpSetSeedGenerator f => snd (set_seed_generator f w)
  | OpSetSeedKeyAlgorithm f => snd (set_seed_key_algorithm f w)
  | OpSetNotify f => snd (set_notify f w)
  end.

(** A sequence of operations, each started in the world the one before it
    left; an exception ends the operation that raised it, not the sequence. *)
Fixpoint run (ops : list Op) (w : World) : World :=
  match ops with
  | [] => w
  | o :: ops' => run ops' (after o w)
  end.

Definition is_delivery (o : Op) : bool :=
  match o with
  | OpDeliver _ _ _ _ _ => true
  | _ => false
  end.

Definition is_respond (o : Op) : bool :=
  match o with
  | OpRespond _ _ _ _ => true
  | _ => false
  end.

Definition is_subscribe (c : Call) : bool :=
  match c with
  | CallSubscribe => true
  | _ => false
  end.

Definition is_unsubscribe (c : Call) : bool :=
  match c with
  | CallUnsubscribe => true
  | _ => false
  end.

(** How many calls of one kind the log shows. *)
Definition count_calls (kind : Call -> bool) (l : list (Snapshot * Call))
  : nat :=
  List.length (filter (fun sc => kind (snd sc)) l).

(** An application whose callbacks do not reach back into the object: they
    write none of its attributes and make no call through it.  They may
    still raise, and may change what the collaborators own. *)
Definition detached : Prop :=
  forall (f : Callable) (w : World),
    self (snd (application f w)) = self w /\
    calls (snd (application f w)) = calls w.

End Coordinator.

Arguments MemoryAccess : clear implicits.
Arguments World : clear implicits.
Arguments Call : clear implicits.
Arguments Snapshot : clear implicits.
Arguments Exn : clear implicits.
Arguments M : clear implicits.
Arguments Returned {Err A} a.
Arguments Raised {Err A} e.

(** ** A test rig

    Doubles for the three collaborators, small enough to run the methods on
    concrete inputs. *)
Module Stub.

Record Rig : Type := mkRig {
  listening : bool;
  fragments : nat;
  rounds : nat;
  busy : bool;
  sent : list (bool * list Z * Z * Z);
  canned : string + list Z
}.

Definition subscribe_rig (b : bool) (r : Rig) : Rig :=
  mkRig b (fragments r) (rounds r) (busy r) (sent r) (canned r).

Definition parse_rig (r : Rig) : Rig :=
  mkRig (listening r) (S (fragments r)) (rounds r) (busy r) (sent r) (canned r).

Definition busy_rig (b : bool) (r : Rig) : Rig :=
  mkRig (listening r) (fragments r) (rounds r) b (sent r) (canned r).

Definition respond_rig (p : bool) (d : list Z) (e x : Z) (r : Rig)
  : (string + list Z) * Rig :=
  (inr d,
   mkRig (listening r) (fragments r) (rounds r) (busy r)
     (sent r ++ [(p, d, e, x)]) (canned r)).

Definition write_rig (r : Rig) : (string + unit) * Rig :=
  (match canned r with inl e => inl e | inr _ => inr tt end, r).

#[global] Instance rig : Collaborators Rig string nat := {|
  Dm14Query_new := fun r => r;
  DM14Server_new := fun r => r;
  ca_subscribe := subscribe_rig true;
  ca_unsubscribe := subscribe_rig false;
  server_parse_dm14 := fun _ _ _ _ _ => parse_rig;
  server_state_is_SEND_PROCEED := fun r => (rounds r <=? fragments r)%nat;
  server_set_busy := busy_rig;
  server_respond := respond_rig;
  server_set_seed_generator := fun _ r => r;
  server_set_seed_key_algorithm := fun _ r => r;
  query_read := fun _ _ _ _ _ _ _ r => (canned r, r);
  query_write := fun _ _ _ _ _ => write_rig;
  query_set_seed_key_algorithm := fun _ r => r
|}.

Definition App : Type := M Rig string nat unit.

(** An application whose callbacks touch nothing. *)
Definition quiet (f : nat) : App := ret tt.

(** An application that answers from inside the callback. *)
Definition eager (f : nat) : App :=
  bind (respond true (Some [1; 2]) None None) (fun _ => ret tt).

(** A controller application with nothing attached yet; the responder wants
    [n] fragments and the query builder's exchange yields [c]. *)
Definition bare (n : nat) (c : string + list Z) : Rig :=
  mkRig false O n false [] c.

(** A freshly constructed object put into state [s], with or without
    security and notification callback. *)
Definition rigged (s : DMState) (sec : bool) (cb : option nat) (r : Rig)
  : World Rig nat :=
  let w := __init__ r in
  mkWorld (mkMemoryAccess s sec cb None None None) (ext w) (calls w).

(** The message used in the runs below: priority 6, the DM14 parameter group,
    source address 0x80, one byte of payload. *)
Definition deliver (app : nat -> App) : App :=
  _listen_for_dm14 app 6 55552 128 0 [x01].

(** An object in the middle of a local query to address 0x20. *)
Definition mid_query : World Rig nat :=
  let w := rigged WAIT_QUERY false None (bare 1 (inr [])) in
  mkWorld (with_address 32 (self w)) (ext w) (calls w).

End Stub.

(** * Properties *)

Lemma DMState_eqb_spec (a b : DMState) : reflect (a = b) (DMState_eqb a b).
Proof.
  destruct a, b; cbn; constructor; congruence.
Qed.

Lemma DMState_eqb_IDLE_false (s : DMState) :
  s <> IDLE -> DMState_eqb s IDLE = false.
Proof.
  intros Hs. destruct (DMState_eqb_spec s IDLE); [contradiction | reflexivity].
Qed.

Section Properties.

Context {Ext Err Callable : Type} {collab : Collaborators Ext Err Callable}.
Variable application : Callable -> M Ext Err Callable unit.

(** ** Calls made outside IDLE *)

Lemma read_outside_IDLE (w : World Ext Callable) a b c n z sg rw :
  state (self w) <> IDLE ->
  read a b c n z sg rw w = (Raised (RuntimeWarning "Process already Running"), w).
Proof.
  intros Hs. unfold read, bind, get_self, raise.
  rewrite (DMState_eqb_IDLE_false _ Hs). reflexivity.
Qed.

Lemma write_outside_IDLE (w : World Ext Callable) a b c v z :
  state (self w) <> IDLE ->
  write a b c v z w = (Returned tt, w).
Proof.
  intros Hs. unfold write, bind, get_self, ret.
  rewrite (DMState_eqb_IDLE_false _ Hs). reflexivity.
Qed.

(** C3: outside [IDLE], [read] raises the busy error; the world it leaves is
    the world it found, so the state is unchanged and the log shows no call
    to the query builder. *)
Theorem read_busy (w : World Ext Callable) a b c n z sg rw :
  state (self w) <> IDLE ->
  fst (read a b c n z sg rw w)
    = Raised (RuntimeWarning "Process already Running") /\
  state (self (snd (read a b c n z sg rw w))) = state (self w) /\
  calls (snd (read a b c n z sg rw w)) = calls w /\
  ext (snd (read a b c n z sg rw w)) = ext w /\
  snd (read a b c n z sg rw w) = w.
Proof.
  intros Hs. rewrite read_outside_IDLE by exact Hs.
  cbn. repeat split.
Qed.

(** ** respond *)

(** One run of [respond], in full. *)
Lemma respond_run (w : World Ext Callable)
    (proceed : bool) (data : option (list Z)) (error edcp : option Z) :
  respond proceed data error edcp w =
    (match fst (server_respond proceed (arg_or [] data)
                  (arg_or 16777215 error) (arg_or 255 edcp)
                  (ca_unsubscribe (ext w))) with
     | inr r => Returned r
     | inl e => Raised (CollaboratorError e)
     end,
     mkWorld (with_state IDLE (self w))
       (snd (server_respond proceed (arg_or [] data)
               (arg_or 16777215 error) (arg_or 255 edcp)
               (ca_unsubscribe (ext w))))
       (calls w ++
          [(At (self w), CallUnsubscribe);
           (At (with_state IDLE (self w)),
            CallRespond proceed (arg_or [] data)
              (arg_or 16777215 error) (arg_or 255 edcp))])).
Proof.
  unfold respond, bind, call_ext, update_self, call_ext_result, logged.
  cbn [self ext calls fst snd]. rewrite <- app_assoc. cbn [app].
  destruct data; cbn [arg_or];
    destruct (fst (server_respond _ _ _ _ _)); reflexivity.
Qed.

(** C4: in every state and for every combination of arguments, [respond]
    calls [unsubscribe] on the controller application, sets the state to
    [IDLE] and then calls the responder's [respond] with the arguments it
    was given, an argument left out being [[]], [0xFFFFFF] and [0xFF] in
    that order; what the responder returns or raises is what [respond]
    returns or raises. *)
Theorem respond_resets_and_delegates (w : World Ext Callable)
    (proceed : bool) (data : option (list Z)) (error edcp : option Z) :
  respond proceed data error edcp w =
    (match fst (server_respond proceed (arg_or [] data)
                  (arg_or 16777215 error) (arg_or 255 edcp)
                  (ca_unsubscribe (ext w))) with
     | inr r => Returned r
     | inl e => Raised (CollaboratorError e)
     end,
     mkWorld (with_state IDLE (self w))
       (snd (server_respond proceed (arg_or [] data)
               (arg_or 16777215 error) (arg_or 255 edcp)
               (ca_unsubscribe (ext w))))
       (calls w ++
          [(At (self w), CallUnsubscribe);
           (At (with_state IDLE (self w)),
            CallRespond proceed (arg_or [] data)
              (arg_or 16777215 error) (arg_or 255 edcp))])) /\
  state (self (snd (respond proceed data error edcp w))) = IDLE /\
  calls (snd (respond proceed None None None w)) =
    calls w ++
      [(At (self w), CallUnsubscribe);
       (At (with_state IDLE (self w)), CallRespond proceed [] 16777215 255)] /\
  (forall d e x,
     calls (snd (respond proceed (Some d) (Some e) (Some x) w)) =
       calls w ++
         [(At (self w), CallUnsubscribe);
          (At (with_state IDLE (self w)), CallRespond proceed d e x)]).
Proof.
  split; [apply respond_run |].
  split; [rewrite respond_run; reflexivity |].
  split; [rewrite respond_run; reflexivity |].
  intros d e x. rewrite respond_run. reflexivity.
Qed.

(** ** Construction *)

(** C10: a freshly constructed object is in state [IDLE], has called
    [subscribe] on the controller application (so a message delivered before
    any method is called is handled as the start of a request), has security
    off and has none of its three callbacks set. *)
Theorem init_idle_subscribed (e : Ext) :
  state (self (__init__ e)) = IDLE /\
  seed_security (self (__init__ e)) = false /\
  _notify_query_received (self (__init__ e)) = None /\
  _seed_key_valid (self (__init__ e)) = None /\
  _proceed_function (self (__init__ e)) = None /\
  ext (__init__ e) = ca_subscribe (DM14Server_new (Dm14Query_new e)) /\
  calls (__init__ e) =
    [(Constructing, CallQueryNew); (Constructing, CallServerNew);
     (Constructing, CallSubscribe)] /\
  (forall p g s t d,
     state (self (after application (OpDeliver p g s t d) (__init__ e)))
       = REQUEST_STARTED /\
     In (At (with_state REQUEST_STARTED (self (__init__ e))),
         CallParse p g s t d)
        (calls (after application (OpDeliver p g s t d) (__init__ e)))).
Proof.
  do 7 (split; [reflexivity |]).
  intros p g s t d. cbn. split; [reflexivity |].
  right; right; right; left; reflexivity.
Qed.

(** ** Inbound messages *)

(** The world [_listen_for_dm14] has built, from [IDLE] and with security
    off, by the time it looks at the notification callback. *)
Lemma listen_IDLE_open (w : World Ext Callable) p g s t d :
  state (self w) = IDLE ->
  seed_security (self w) = false ->
  _listen_for_dm14 application p g s t d w =
    notify_if_set application
      (mkWorld (with_state REQUEST_STARTED (self w))
         (ca_unsubscribe (server_parse_dm14 p g s t d (ext w)))
         (calls w ++
            [(At (with_state REQUEST_STARTED (self w)), CallParse p g s t d);
             (At (with_state REQUEST_STARTED (self w)), CallUnsubscribe)])).
Proof.
  intros Hst Hsec.
  unfold _listen_for_dm14 at 1. unfold bind at 1. unfold get_self at 1.
  rewrite Hst.
  unfold bind, update_self, call_ext, get_self, logged.
  cbn [self ext calls fst snd with_state seed_security].
  rewrite Hsec. cbn [negb self ext calls].
  rewrite <- app_assoc. reflexivity.
Qed.

Lemma notify_if_set_Some (w : World Ext Callable) f :
  _notify_query_received (self w) = Some f ->
  notify_if_set application w = call_notify application f w.
Proof.
  intros Hf. unfold notify_if_set, bind, get_self. rewrite Hf. reflexivity.
Qed.

Lemma notify_if_set_None (w : World Ext Callable) :
  _notify_query_received (self w) = None ->
  notify_if_set application w = (Returned tt, w).
Proof.
  intros Hf. unfold notify_if_set, bind, get_self. rewrite Hf. reflexivity.
Qed.

Lemma count_notify_app (l1 l2 : list (Snapshot Callable * Call Callable)) :
  count_notify (l1 ++ l2) = (count_notify l1 + count_notify l2)%nat.
Proof.
  induction l1 as [| [sn c] l1 IH]; [reflexivity |].
  cbn [app count_notify]. destruct c; rewrite IH; reflexivity.
Qed.

(** C5: with security off, a message delivered in [IDLE] sets the state to
    [REQUEST_STARTED], is passed to the responder's parser, and is followed
    by [unsubscribe]; the world [w1] so reached is where the method stops
    when no notification callback is set, and where the callback is called,
    once and as the method's last act, when one is set. *)
Theorem listen_IDLE_without_security (w : World Ext Callable) p g s t d :
  seed_security (self w) = false ->
  state (self w) = IDLE ->
  exists w1 : World Ext Callable,
    self w1 = with_state REQUEST_STARTED (self w) /\
    state (self w1) = REQUEST_STARTED /\
    ext w1 = ca_unsubscribe (server_parse_dm14 p g s t d (ext w)) /\
    calls w1 =
      calls w ++
        [(At (with_state REQUEST_STARTED (self w)), CallParse p g s t d);
         (At (with_state REQUEST_STARTED (self w)), CallUnsubscribe)] /\
    count_notify (calls w1) = count_notify (calls w) /\
    match _notify_query_received (self w) with
    | None => _listen_for_dm14 application p g s t d w = (Returned tt, w1)
    | Some f =>
        _listen_for_dm14 application p g s t d w =
          application f
            (mkWorld (self w1) (ext w1)
               (calls w1 ++ [(At (self w1), CallNotify f)])) /\
        count_notify (calls w1 ++ [(At (self w1), CallNotify f)]) =
          S (count_notify (calls w))
    end.
Proof.
  intros Hsec Hst.
  eexists (mkWorld _ _ _). cbn [self ext calls].
  split; [reflexivity |]. split; [reflexivity |].
  split; [reflexivity |]. split; [reflexivity |].
  split.
  { rewrite count_notify_app. cbn. apply Nat.add_0_r. }
  rewrite (listen_IDLE_open w p g s t d Hst Hsec).
  destruct (_notify_query_received (self w)) as [f |] eqn:Hcb.
  - split.
    + rewrite notify_if_set_Some with (f := f) by exact Hcb. reflexivity.
    + rewrite !count_notify_app. cbn. rewrite Nat.add_0_r. apply Nat.add_1_r.
  - apply notify_if_set_None. exact Hcb.
Qed.

(** C9: with security off and a notification callback [f] set, a message
    delivered in [IDLE] has the callback run on a world [seen] in which
    [unsubscribe] has already been called and the state is [REQUEST_STARTED],
    not [WAIT_RESPONSE]; unless the callback itself moves the state, that is
    the state in which a later [respond] finds the object. *)
Theorem notify_after_unsubscribe_in_REQUEST_STARTED
    (w : World Ext Callable) p g s t d (f : Callable) :
  seed_security (self w) = false ->
  state (self w) = IDLE ->
  _notify_query_received (self w) = Some f ->
  exists seen : World Ext Callable,
    _listen_for_dm14 application p g s t d w = application f seen /\
    state (self seen) = REQUEST_STARTED /\
    state (self seen) <> WAIT_RESPONSE /\
    ext seen = ca_unsubscribe (server_parse_dm14 p g s t d (ext w)) /\
    (exists before,
       calls seen =
         before ++ [(At (self seen), CallUnsubscribe);
                    (At (self seen), CallNotify f)]) /\
    (state (self (snd (application f seen))) = state (self seen) ->
     state (self (snd (_listen_for_dm14 application p g s t d w)))
       = REQUEST_STARTED /\
     forall pr dt er ed,
       exists m,
         state m = REQUEST_STARTED /\
         calls (snd (respond pr dt er ed
                       (snd (_listen_for_dm14 application p g s t d w)))) =
           calls (snd (_listen_for_dm14 application p g s t d w)) ++
             [(At m, CallUnsubscribe);
              (At (with_state IDLE m),
               CallRespond pr (arg_or [] dt) (arg_or 16777215 er)
                 (arg_or 255 ed))]).
Proof.
  intros Hsec Hst Hcb.
  rewrite (listen_IDLE_open w p g s t d Hst Hsec).
  rewrite notify_if_set_Some with (f := f) by exact Hcb.
  unfold call_notify, logged. cbn [self ext calls].
  eexists. split; [reflexivity |]. cbn [self ext calls state with_state].
  split; [reflexivity |]. split; [discriminate |]. split; [reflexivity |].
  split.
  { exists (calls w ++
              [(At (with_state REQUEST_STARTED (self w)), CallParse p g s t d)]).
    rewrite <- !app_assoc. reflexivity. }
  intros Hquiet. split; [exact Hquiet |].
  intros pr dt er ed. eexists. split; [exact Hquiet |].
  rewrite respond_run. reflexivity.
Qed.

(** [_listen_for_dm14] state by state. *)
Lemma listen_IDLE_secured (w : World Ext Callable) p g s t d :
  state (self w) = IDLE ->
  seed_security (self w) = true ->
  _listen_for_dm14 application p g s t d w =
    (Returned tt,
     mkWorld (with_state REQUEST_STARTED (self w))
       (server_parse_dm14 p g s t d (ext w))
       (calls w ++
          [(At (with_state REQUEST_STARTED (self w)), CallParse p g s t d)])).
Proof.
  intros Hst Hsec.
  unfold _listen_for_dm14, bind, get_self, update_self, call_ext, logged, ret.
  rewrite Hst. cbn [self ext calls seed_security with_state].
  rewrite Hsec. reflexivity.
Qed.

Lemma listen_REQUEST_STARTED (w : World Ext Callable) p g s t d :
  state (self w) = REQUEST_STARTED ->
  _listen_for_dm14 application p g s t d w =
    if server_state_is_SEND_PROCEED (server_parse_dm14 p g s t d (ext w))
    then
      notify_if_set application
        (mkWorld (with_state WAIT_RESPONSE (self w))
           (server_parse_dm14 p g s t d (ext w))
           (calls w ++ [(At (self w), CallParse p g s t d)]))
    else
      (Returned tt,
       mkWorld (self w) (server_parse_dm14 p g s t d (ext w))
         (calls w ++ [(At (self w), CallParse p g s t d)])).
Proof.
  intros Hst.
  unfold _listen_for_dm14 at 1. unfold bind at 1. unfold get_self at 1.
  rewrite Hst.
  unfold bind, call_ext, read_ext, update_self, logged, ret.
  cbn [self ext calls].
  destruct (server_state_is_SEND_PROCEED _); reflexivity.
Qed.

Lemma listen_WAIT_QUERY (w : World Ext Callable) p g s t d :
  state (self w) = WAIT_QUERY ->
  _listen_for_dm14 application p g s t d w =
    (Returned tt,
     mkWorld (self w)
       (server_set_busy false
          (server_parse_dm14 p g s t d (server_set_busy true (ext w))))
       (calls w ++
          [(At (self w), CallSetBusy true);
           (At (self w), CallParse p g s t d);
           (At (self w), CallSetBusy false)])).
Proof.
  intros Hst.
  unfold _listen_for_dm14, bind, get_self, call_ext, logged.
  rewrite Hst. cbn [self ext calls].
  rewrite <- !app_assoc. reflexivity.
Qed.

Lemma listen_WAIT_RESPONSE (w : World Ext Callable) p g s t d :
  state (self w) = WAIT_RESPONSE ->
  _listen_for_dm14 application p g s t d w = (Returned tt, w).
Proof.
  intros Hst. unfold _listen_for_dm14, bind, get_self, ret.
  rewrite Hst. reflexivity.
Qed.

(** The state [read] and [write] leave behind when they start from [IDLE]. *)
Lemma read_from_IDLE (w : World Ext Callable) a b c n z sg rw :
  state (self w) = IDLE ->
  read a b c n z sg rw w =
    match fst (query_read a b c n (arg_or 1 z) (arg_or false sg)
                 (arg_or false rw) (ext w)) with
    | inr vs =>
        (Returned vs,
         mkWorld (with_state IDLE (with_address a (with_state WAIT_QUERY (self w))))
           (snd (query_read a b c n (arg_or 1 z) (arg_or false sg)
                   (arg_or false rw) (ext w)))
           (calls w ++
              [(At (with_address a (with_state WAIT_QUERY (self w))),
                CallQueryRead a b c n (arg_or 1 z) (arg_or false sg)
                  (arg_or false rw))]))
    | inl e =>
        (Raised (CollaboratorError e),
         mkWorld (with_address a (with_state WAIT_QUERY (self w)))
           (snd (query_read a b c n (arg_or 1 z) (arg_or false sg)
                   (arg_or false rw) (ext w)))
           (calls w ++
              [(At (with_address a (with_state WAIT_QUERY (self w))),
                CallQueryRead a b c n (arg_or 1 z) (arg_or false sg)
                  (arg_or false rw))]))
    end.
Proof.
  intros Hst.
  unfold read, bind, get_self, update_self, call_ext_result, logged, ret.
  rewrite Hst. cbn [DMState_eqb DMState_value Z.eqb Pos.eqb self ext calls].
  destruct (fst (query_read _ _ _ _ _ _ _ _)); reflexivity.
Qed.

Lemma write_from_IDLE (w : World Ext Callable) a b c v z :
  state (self w) = IDLE ->
  write a b c v z w =
    match fst (query_write a b c v (arg_or 1 z) (ext w)) with
    | inr _ =>
        (Returned tt,
         mkWorld (with_state IDLE (with_address a (with_state WAIT_QUERY (self w))))
           (snd (query_write a b c v (arg_or 1 z) (ext w)))
           (calls w ++
              [(At (with_address a (with_state WAIT_QUERY (self w))),
                CallQueryWrite a b c v (arg_or 1 z))]))
    | inl e =>
        (Raised (CollaboratorError e),
         mkWorld (with_address a (with_state WAIT_QUERY (self w)))
           (snd (query_write a b c v (arg_or 1 z) (ext w)))
           (calls w ++
              [(At (with_address a (with_state WAIT_QUERY (self w))),
                CallQueryWrite a b c v (arg_or 1 z))]))
    end.
Proof.
  intros Hst.
  unfold write, bind, get_self, update_self, call_ext_result, logged.
  rewrite Hst. cbn [DMState_eqb DMState_value Z.eqb Pos.eqb self ext calls].
  destruct (fst (query_write _ _ _ _ _ _)) as [e | []]; reflexivity.
Qed.

(** C7: a message delivered in [WAIT_QUERY] makes three calls on the
    responder, [set_busy(True)], [parse_dm14] with the message and
    [set_busy(False)], in that order; no attribute of the object changes, so
    the state is still [WAIT_QUERY] and [address] is what it was. *)
Theorem listen_WAIT_QUERY_bracketed (w : World Ext Callable) p g s t d :
  state (self w) = WAIT_QUERY ->
  fst (_listen_for_dm14 application p g s t d w) = Returned tt /\
  calls (snd (_listen_for_dm14 application p g s t d w)) =
    calls w ++
      [(At (self w), CallSetBusy true);
       (At (self w), CallParse p g s t d);
       (At (self w), CallSetBusy false)] /\
  ext (snd (_listen_for_dm14 application p g s t d w)) =
    server_set_busy false
      (server_parse_dm14 p g s t d (server_set_busy true (ext w))) /\
  self (snd (_listen_for_dm14 application p g s t d w)) = self w /\
  state (self (snd (_listen_for_dm14 application p g s t d w))) = WAIT_QUERY /\
  address (self (snd (_listen_for_dm14 application p g s t d w)))
    = address (self w).
Proof.
  intros Hst. rewrite (listen_WAIT_QUERY w p g s t d Hst).
  cbn [fst snd self ext calls]. rewrite Hst. repeat split.
Qed.


(** C2, amended: started from [IDLE], [read] and [write] leave the state
    [IDLE] when the query builder's exchange returns; when it raises, the
    error reaches the caller and the state stays [WAIT_QUERY]. *)
Theorem query_outcome_decides_final_state (w : World Ext Callable)
    (dest direct addr count : Z) (size : option Z) (sg rw : option bool)
    (values : list Z) :
  state (self w) = IDLE ->
  (forall vs e',
     query_read dest direct addr count (arg_or 1 size) (arg_or false sg)
       (arg_or false rw) (ext w) = (inr vs, e') ->
     fst (read dest direct addr count size sg rw w) = Returned vs /\
     state (self (snd (read dest direct addr count size sg rw w))) = IDLE) /\
  (forall err e',
     query_read dest direct addr count (arg_or 1 size) (arg_or false sg)
       (arg_or false rw) (ext w) = (inl err, e') ->
     fst (read dest direct addr count size sg rw w)
       = Raised (CollaboratorError err) /\
     state (self (snd (read dest direct addr count size sg rw w)))
       = WAIT_QUERY) /\
  (forall e',
     query_write dest direct addr values (arg_or 1 size) (ext w)
       = (inr tt, e') ->
     fst (write dest direct addr values size w) = Returned tt /\
     state (self (snd (write dest direct addr values size w))) = IDLE) /\
  (forall err e',
     query_write dest direct addr values (arg_or 1 size) (ext w)
       = (inl err, e') ->
     fst (write dest direct addr values size w)
       = Raised (CollaboratorError err) /\
     state (self (snd (write dest direct addr values size w)))
       = WAIT_QUERY).
Proof.
  intros Hst.
  pose proof (read_from_IDLE w dest direct addr count size sg rw Hst) as Hr.
  pose proof (write_from_IDLE w dest direct addr values size Hst) as Hw.
  repeat split; intros;
    match goal with
    | H : query_read _ _ _ _ _ _ _ _ = _ |- _ =>
        rewrite H in Hr; rewrite Hr
    | H : query_write _ _ _ _ _ _ = _ |- _ =>
        rewrite H in Hw; rewrite Hw
    end; reflexivity.
Qed.

(** The methods of the application's side never produce [WAIT_RESPONSE]. *)
Lemma respond_state (w : World Ext Callable) pr dt er ed :
  state (self (snd (respond pr dt er ed w))) = IDLE.
Proof. rewrite respond_run. reflexivity. Qed.

Lemma read_state (w : World Ext Callable) a b c n z sg rw :
  state (self (snd (read a b c n z sg rw w))) = state (self w) \/
  state (self (snd (read a b c n z sg rw w))) = IDLE \/
  state (self (snd (read a b c n z sg rw w))) = WAIT_QUERY.
Proof.
  destruct (DMState_eqb_spec (state (self w)) IDLE) as [Hst | Hst].
  - right. rewrite (read_from_IDLE w a b c n z sg rw Hst).
    destruct (fst (query_read _ _ _ _ _ _ _ _)); [right | left]; reflexivity.
  - left. rewrite read_outside_IDLE by exact Hst. reflexivity.
Qed.

Lemma write_state (w : World Ext Callable) a b c v z :
  state (self (snd (write a b c v z w))) = state (self w) \/
  state (self (snd (write a b c v z w))) = IDLE \/
  state (self (snd (write a b c v z w))) = WAIT_QUERY.
Proof.
  destruct (DMState_eqb_spec (state (self w)) IDLE) as [Hst | Hst].
  - right. rewrite (write_from_IDLE w a b c v z Hst).
    destruct (fst (query_write _ _ _ _ _ _)); [right | left]; reflexivity.
  - left. rewrite write_outside_IDLE by exact Hst. reflexivity.
Qed.

Lemma setters_state (w : World Ext Callable) f :
  state (self (snd (set_seed_generator f w))) = state (self w) /\
  state (self (snd (set_seed_key_algorithm f w))) = state (self w) /\
  state (self (snd (set_notify (Err := Err) f w))) = state (self w).
Proof. repeat split. Qed.

(** C6: with security on, a message delivered in [IDLE] is parsed and the
    state becomes [REQUEST_STARTED] with no call to [unsubscribe]; a message
    delivered in [REQUEST_STARTED] is parsed and, when the responder's state
    is then [SEND_PROCEED], the state becomes [WAIT_RESPONSE] and the
    notification callback, if set, is run on the world so reached, the log
    showing the parse and then the one call of the callback; when it is not,
    nothing but the parse happens.  No delivery and no method call takes the
    object into [WAIT_RESPONSE] in any other way. *)
Theorem listen_with_security (w : World Ext Callable) :
  seed_security (self w) = true ->
  (forall p g s t d,
     state (self w) = IDLE ->
     _listen_for_dm14 application p g s t d w =
       (Returned tt,
        mkWorld (with_state REQUEST_STARTED (self w))
          (server_parse_dm14 p g s t d (ext w))
          (calls w ++
             [(At (with_state REQUEST_STARTED (self w)),
               CallParse p g s t d)]))) /\
  (forall p g s t d,
     state (self w) = REQUEST_STARTED ->
     server_state_is_SEND_PROCEED (server_parse_dm14 p g s t d (ext w))
       = true ->
     _listen_for_dm14 application p g s t d w =
       match _notify_query_received (self w) with
       | Some f =>
           application f
             (mkWorld (with_state WAIT_RESPONSE (self w))
                (server_parse_dm14 p g s t d (ext w))
                (calls w ++
                   [(At (self w), CallParse p g s t d);
                    (At (with_state WAIT_RESPONSE (self w)), CallNotify f)]))
       | None =>
           (Returned tt,
            mkWorld (with_state WAIT_RESPONSE (self w))
              (server_parse_dm14 p g s t d (ext w))
              (calls w ++ [(At (self w), CallParse p g s t d)]))
       end) /\
  (forall p g s t d,
     state (self w) = REQUEST_STARTED ->
     server_state_is_SEND_PROCEED (server_parse_dm14 p g s t d (ext w))
       = false ->
     _listen_for_dm14 application p g s t d w =
       (Returned tt,
        mkWorld (self w) (server_parse_dm14 p g s t d (ext w))
          (calls w ++ [(At (self w), CallParse p g s t d)]))) /\
  (forall o : Op,
     state (self w) <> WAIT_RESPONSE ->
     state (self (after application o w)) = WAIT_RESPONSE ->
     exists p g s t d,
       o = OpDeliver p g s t d /\
       state (self w) = REQUEST_STARTED /\
       server_state_is_SEND_PROCEED (server_parse_dm14 p g s t d (ext w))
         = true).
Proof.
  intros Hsec. split; [| split; [| split]].
  - intros p g s t d Hst. apply listen_IDLE_secured; assumption.
  - intros p g s t d Hst Hready.
    rewrite (listen_REQUEST_STARTED w p g s t d Hst), Hready.
    unfold notify_if_set, bind, get_self.
    cbn [self _notify_query_received with_state].
    destruct (_notify_query_received (self w)) as [f |]; [| reflexivity].
    unfold call_notify, logged. cbn [self ext calls].
    rewrite <- app_assoc. reflexivity.
  - intros p g s t d Hst Hready.
    rewrite (listen_REQUEST_STARTED w p g s t d Hst), Hready. reflexivity.
  - intros o Hbefore Hafter.
    destruct o as [p g s t d | pr dt er ed | a b c n z sg rw | a b c v z
                  | f | f | f]; cbn [after] in Hafter.
    + destruct (state (self w)) eqn:Hst.
      * rewrite (listen_IDLE_secured w p g s t d Hst Hsec) in Hafter.
        discriminate Hafter.
      * rewrite (listen_REQUEST_STARTED w p g s t d Hst) in Hafter.
        destruct (server_state_is_SEND_PROCEED _) eqn:Hready.
        -- exists p, g, s, t, d.
           split; [reflexivity | split; [reflexivity | exact Hready]].
        -- cbn in Hafter. congruence.
      * contradiction Hbefore. reflexivity.
      * rewrite (listen_WAIT_QUERY w p g s t d Hst) in Hafter.
        cbn in Hafter. congruence.
    + rewrite respond_state in Hafter. discriminate Hafter.
    + destruct (read_state w a b c n z sg rw) as [H | [H | H]];
        rewrite H in Hafter; (contradiction || discriminate).
    + destruct (write_state w a b c v z) as [H | [H | H]];
        rewrite H in Hafter; (contradiction || discriminate).
    + contradiction.
    + contradiction.
    + contradiction.
Qed.

End Properties.

(** * Runs on the test rig *)

(** C1: in each of the three states other than [IDLE], [write] returns
    normally, raising nothing, and leaves the world as it found it; the
    [else] branch that makes [read] raise is absent from [write]. *)
Theorem write_outside_IDLE_is_silent :
  write 32 0 4096 [1; 2] None
    (Stub.rigged WAIT_QUERY false None (Stub.bare 1 (inr [])))
    = (Returned tt, Stub.rigged WAIT_QUERY false None (Stub.bare 1 (inr []))) /\
  write 32 0 4096 [1; 2] None
    (Stub.rigged REQUEST_STARTED false None (Stub.bare 1 (inr [])))
    = (Returned tt,
       Stub.rigged REQUEST_STARTED false None (Stub.bare 1 (inr []))) /\
  write 32 0 4096 [1; 2] None
    (Stub.rigged WAIT_RESPONSE false None (Stub.bare 1 (inr [])))
    = (Returned tt,
       Stub.rigged WAIT_RESPONSE false None (Stub.bare 1 (inr []))) /\
  fst (read 32 0 4096 2 None None None
         (Stub.rigged WAIT_QUERY false None (Stub.bare 1 (inr []))))
    = Raised (RuntimeWarning "Process already Running").
Proof.
  repeat split; apply write_outside_IDLE; discriminate.
Qed.

(** C2 as stated fails: with a query builder whose exchange raises, [read]
    and [write] started from [IDLE] raise and leave the state
    [WAIT_QUERY]. *)
Lemma failed_query_leaves_WAIT_QUERY :
  state (self (Stub.rigged IDLE false None (Stub.bare 1 (inl "timeout"%string))))
    = IDLE /\
  fst (read 32 0 4096 4 (Some 2) None None
         (Stub.rigged IDLE false None (Stub.bare 1 (inl "timeout"%string))))
    = Raised (CollaboratorError "timeout"%string) /\
  state (self (snd (read 32 0 4096 4 (Some 2) None None
         (Stub.rigged IDLE false None (Stub.bare 1 (inl "timeout"%string))))))
    <> IDLE /\
  fst (write 32 0 4096 [1; 2] None
         (Stub.rigged IDLE false None (Stub.bare 1 (inl "timeout"%string))))
    = Raised (CollaboratorError "timeout"%string) /\
  state (self (snd (write 32 0 4096 [1; 2] None
         (Stub.rigged IDLE false None (Stub.bare 1 (inl "timeout"%string))))))
    <> IDLE.
Proof.
  vm_compute. repeat split; discriminate.
Qed.

(** [query_outcome_decides_final_state] on the rig, with a query builder
    whose exchange times out. *)
Lemma query_outcome_decides_final_state_witness :
  state (self (Stub.rigged IDLE false None (Stub.bare 1 (inl "timeout"%string))))
    = IDLE /\
  state (self (snd (read 32 0 4096 4 (Some 2) None None
         (Stub.rigged IDLE false None (Stub.bare 1 (inl "timeout"%string))))))
    = WAIT_QUERY /\
  state (self (snd (write 32 0 4096 [1; 2] (Some 2)
         (Stub.rigged IDLE false None (Stub.bare 1 (inl "timeout"%string))))))
    = WAIT_QUERY.
Proof.
  split; [reflexivity |].
  destruct (query_outcome_decides_final_state
              (Stub.rigged IDLE false None (Stub.bare 1 (inl "timeout"%string)))
              32 0 4096 4 (Some 2) None None [1; 2] eq_refl)
    as (_ & Hread & _ & Hwrite).
  split.
  - exact (proj2 (Hread "timeout"%string _ eq_refl)).
  - exact (proj2 (Hwrite "timeout"%string _ eq_refl)).
Defined.

(** [read_busy] on the rig, in [WAIT_RESPONSE]. *)
Lemma read_busy_witness :
  state (self (Stub.rigged WAIT_RESPONSE false None
                 (Stub.bare 1 (inr [10; 20; 30; 40])))) <> IDLE /\
  fst (read 32 0 4096 4 (Some 2) None None
         (Stub.rigged WAIT_RESPONSE false None
            (Stub.bare 1 (inr [10; 20; 30; 40]))))
    = Raised (RuntimeWarning "Process already Running") /\
  calls (snd (read 32 0 4096 4 (Some 2) None None
         (Stub.rigged WAIT_RESPONSE false None
            (Stub.bare 1 (inr [10; 20; 30; 40])))))
    = calls (Stub.rigged WAIT_RESPONSE false None
               (Stub.bare 1 (inr [10; 20; 30; 40]))).
Proof.
  assert (Hbusy : state (self (Stub.rigged WAIT_RESPONSE false None
                    (Stub.bare 1 (inr [10; 20; 30; 40])))) <> IDLE)
    by (cbn; discriminate).
  split; [exact Hbusy |].
  destruct (read_busy
              (Stub.rigged WAIT_RESPONSE false None
                 (Stub.bare 1 (inr [10; 20; 30; 40])))
              32 0 4096 4 (Some 2) None None Hbusy)
    as (Hraised & _ & Hcalls & _).
  split; [exact Hraised | exact Hcalls].
Defined.

(** [listen_IDLE_without_security] on the rig, with a callback set. *)
Lemma listen_IDLE_without_security_witness :
  seed_security (self (Stub.rigged IDLE false (Some 7%nat)
                         (Stub.bare 1 (inr [])))) = false /\
  state (self (Stub.rigged IDLE false (Some 7%nat) (Stub.bare 1 (inr []))))
    = IDLE /\
  exists w1 : World Stub.Rig nat,
    state (self w1) = REQUEST_STARTED /\
    Stub.listening (ext w1) = false /\
    Stub.fragments (ext w1) = 1%nat /\
    Stub.deliver Stub.quiet
      (Stub.rigged IDLE false (Some 7%nat) (Stub.bare 1 (inr [])))
      = Stub.quiet 7%nat
          (mkWorld (self w1) (ext w1)
             (calls w1 ++ [(At (self w1), CallNotify 7%nat)])).
Proof.
  split; [reflexivity |]. split; [reflexivity |].
  destruct (listen_IDLE_without_security Stub.quiet
              (Stub.rigged IDLE false (Some 7%nat) (Stub.bare 1 (inr [])))
              6 55552 128 0 [x01] eq_refl eq_refl)
    as (w1 & _ & Hst & Hext & _ & _ & Hrun).
  exists w1. split; [exact Hst |].
  split; [rewrite Hext; reflexivity |].
  split; [rewrite Hext; reflexivity |].
  exact (proj1 Hrun).
Defined.

(** [notify_after_unsubscribe_in_REQUEST_STARTED] on the rig, with a callback
    that touches nothing. *)
Lemma notify_after_unsubscribe_in_REQUEST_STARTED_witness :
  seed_security (self (Stub.rigged IDLE false (Some 7%nat)
                         (Stub.bare 1 (inr [])))) = false /\
  state (self (Stub.rigged IDLE false (Some 7%nat) (Stub.bare 1 (inr []))))
    = IDLE /\
  _notify_query_received
    (self (Stub.rigged IDLE false (Some 7%nat) (Stub.bare 1 (inr []))))
    = Some 7%nat /\
  exists seen : World Stub.Rig nat,
    Stub.deliver Stub.quiet
      (Stub.rigged IDLE false (Some 7%nat) (Stub.bare 1 (inr [])))
      = Stub.quiet 7%nat seen /\
    state (self seen) = REQUEST_STARTED /\
    Stub.listening (ext seen) = false /\
    state (self (snd (Stub.deliver Stub.quiet
                        (Stub.rigged IDLE false (Some 7%nat)
                           (Stub.bare 1 (inr []))))))
      = REQUEST_STARTED.
Proof.
  do 3 (split; [reflexivity |]).
  destruct (notify_after_unsubscribe_in_REQUEST_STARTED Stub.quiet
              (Stub.rigged IDLE false (Some 7%nat) (Stub.bare 1 (inr [])))
              6 55552 128 0 [x01] 7%nat eq_refl eq_refl eq_refl)
    as (seen & Hrun & Hst & _ & Hext & _ & Hlater).
  exists seen. split; [exact Hrun |]. split; [exact Hst |].
  split; [rewrite Hext; reflexivity |].
  exact (proj1 (Hlater eq_refl)).
Defined.

(** [listen_with_security] on the rig: a first message in [IDLE], then a
    responder that is ready after one fragment, where the log shows the one
    call of the callback, and one that is not, where it shows none. *)
Lemma listen_with_security_witness :
  seed_security (self (Stub.rigged REQUEST_STARTED true (Some 7%nat)
                         (Stub.bare 1 (inr [])))) = true /\
  state (self (snd (Stub.deliver Stub.quiet
                      (Stub.rigged IDLE true (Some 7%nat)
                         (Stub.bare 1 (inr []))))))
    = REQUEST_STARTED /\
  Stub.listening (ext (snd (Stub.deliver Stub.quiet
                      (Stub.rigged IDLE true (Some 7%nat)
                         (Stub.bare 1 (inr []))))))
    = true /\
  state (self (snd (Stub.deliver Stub.quiet
                      (Stub.rigged REQUEST_STARTED true (Some 7%nat)
                         (Stub.bare 1 (inr []))))))
    = WAIT_RESPONSE /\
  count_notify (calls (snd (Stub.deliver Stub.quiet
                      (Stub.rigged REQUEST_STARTED true (Some 7%nat)
                         (Stub.bare 1 (inr []))))))
    = 1%nat /\
  state (self (snd (Stub.deliver Stub.quiet
                      (Stub.rigged REQUEST_STARTED true (Some 7%nat)
                         (Stub.bare 2 (inr []))))))
    = REQUEST_STARTED /\
  count_notify (calls (snd (Stub.deliver Stub.quiet
                      (Stub.rigged REQUEST_STARTED true (Some 7%nat)
                         (Stub.bare 2 (inr []))))))
    = O.
Proof.
  split; [reflexivity |].
  destruct (listen_with_security Stub.quiet
              (Stub.rigged IDLE true (Some 7%nat)
                 (Stub.bare 1 (inr []))) eq_refl)
    as (Hfirst & _).
  destruct (listen_with_security Stub.quiet
              (Stub.rigged REQUEST_STARTED true (Some 7%nat)
                 (Stub.bare 1 (inr []))) eq_refl)
    as (_ & Hready & _).
  destruct (listen_with_security Stub.quiet
              (Stub.rigged REQUEST_STARTED true (Some 7%nat)
                 (Stub.bare 2 (inr []))) eq_refl)
    as (_ & _ & Hnot & _).
  unfold Stub.deliver.
  rewrite (Hfirst 6 55552 128 0 [x01] eq_refl).
  rewrite (Hready 6 55552 128 0 [x01] eq_refl eq_refl).
  rewrite (Hnot 6 55552 128 0 [x01] eq_refl eq_refl).
  repeat split.
Defined.

(** [listen_WAIT_QUERY_bracketed] on the rig, in the middle of a query to
    address 0x20. *)
Lemma listen_WAIT_QUERY_bracketed_witness :
  state (self Stub.mid_query) = WAIT_QUERY /\
  calls (snd (Stub.deliver Stub.quiet Stub.mid_query)) =
    calls Stub.mid_query ++
      [(At (self Stub.mid_query), CallSetBusy true);
       (At (self Stub.mid_query), CallParse 6 55552 128 0 [x01]);
       (At (self Stub.mid_query), CallSetBusy false)] /\
  address (self (snd (Stub.deliver Stub.quiet Stub.mid_query))) = Some 32.
Proof.
  split; [reflexivity |].
  destruct (listen_WAIT_QUERY_bracketed Stub.quiet Stub.mid_query
              6 55552 128 0 [x01] eq_refl)
    as (_ & Hcalls & _ & _ & _ & Haddr).
  split; [exact Hcalls | exact Haddr].
Defined.


(** The scenario of an application that answers from inside the callback:
    the response goes out with the default error and extension codes and the
    object is back in [IDLE], no longer subscribed. *)
Example eager_application_run :
  state (self (snd (Stub.deliver Stub.eager
                      (Stub.rigged IDLE false (Some 7%nat)
                         (Stub.bare 1 (inr []))))))
    = IDLE /\
  Stub.sent (ext (snd (Stub.deliver Stub.eager
                         (Stub.rigged IDLE false (Some 7%nat)
                            (Stub.bare 1 (inr []))))))
    = [(true, [1; 2], 16777215, 255)] /\
  Stub.listening (ext (snd (Stub.deliver Stub.eager
                         (Stub.rigged IDLE false (Some 7%nat)
                            (Stub.bare 1 (inr []))))))
    = false.
Proof. repeat split. Qed.

(** * The object over its lifetime *)

Section Lifetime.

Context {Ext Err Callable : Type} {collab : Collaborators Ext Err Callable}.
Variable application : Callable -> M Ext Err Callable unit.

Lemma with_own_state (m : MemoryAccess Callable) : with_state (state m) m = m.
Proof. destruct m; reflexivity. Qed.

Lemma count_calls_app (kind : Call Callable -> bool)
    (l1 l2 : list (Snapshot Callable * Call Callable)) :
  count_calls kind (l1 ++ l2) = (count_calls kind l1 + count_calls kind l2)%nat.
Proof.
  unfold count_calls. rewrite filter_app, length_app. reflexivity.
Qed.

(** What the notification step does when the callbacks are detached. *)
Lemma notify_if_set_detached (w : World Ext Callable) :
  detached application ->
  self (snd (notify_if_set application w)) = self w /\
  calls (snd (notify_if_set application w)) =
    calls w ++
      match _notify_query_received (self w) with
      | Some f => [(At (self w), CallNotify f)]
      | None => []
      end.
Proof.
  intros Hdet. unfold notify_if_set, bind, get_self.
  destruct (_notify_query_received (self w)) as [f |].
  - unfold call_notify, logged.
    destruct (Hdet f (mkWorld (self w) (ext w)
                        (calls w ++ [(At (self w), CallNotify f)])))
      as [Hself Hcalls].
    rewrite Hself, Hcalls. split; reflexivity.
  - cbn. rewrite app_nil_r. split; reflexivity.
Qed.

(** One delivery, with detached callbacks: the attributes and the log it
    leaves. *)
Lemma listen_detached (w : World Ext Callable) p g s t d :
  detached application ->
  self (snd (_listen_for_dm14 application p g s t d w)) =
    with_state
      match state (self w) with
      | IDLE => REQUEST_STARTED
      | REQUEST_STARTED =>
          if server_state_is_SEND_PROCEED (server_parse_dm14 p g s t d (ext w))
          then WAIT_RESPONSE else REQUEST_STARTED
      | other => other
      end (self w) /\
  exists added,
    calls (snd (_listen_for_dm14 application p g s t d w)) = calls w ++ added /\
    count_calls is_subscribe added = O /\
    count_calls is_unsubscribe added =
      match state (self w) with
      | IDLE => if seed_security (self w) then O else 1%nat
      | _ => O
      end.
Proof.
  intros Hdet. destruct (state (self w)) eqn:Hst.
  - destruct (seed_security (self w)) eqn:Hsec.
    + rewrite (listen_IDLE_secured application w p g s t d Hst Hsec).
      split; [reflexivity |]. eexists. split; [reflexivity |].
      split; reflexivity.
    + rewrite (listen_IDLE_open application w p g s t d Hst Hsec).
      match goal with
      | |- context [notify_if_set application ?w1] =>
          destruct (notify_if_set_detached w1 Hdet) as [Hself Hcalls]
      end.
      rewrite Hself, Hcalls. cbn [self calls].
      split; [reflexivity |]. rewrite <- app_assoc.
      eexists. split; [reflexivity |].
      rewrite !count_calls_app.
      destruct (_notify_query_received _); split; reflexivity.
  - rewrite (listen_REQUEST_STARTED application w p g s t d Hst).
    destruct (server_state_is_SEND_PROCEED _).
    + match goal with
      | |- context [notify_if_set application ?w1] =>
          destruct (notify_if_set_detached w1 Hdet) as [Hself Hcalls]
      end.
      rewrite Hself, Hcalls. cbn [self calls].
      split; [reflexivity |]. rewrite <- app_assoc.
      eexists. split; [reflexivity |].
      rewrite !count_calls_app.
      destruct (_notify_query_received _); split; reflexivity.
    + cbn [snd self calls]. rewrite <- Hst at 1. rewrite with_own_state.
      split; [reflexivity |]. eexists. split; [reflexivity |].
      split; reflexivity.
  - rewrite (listen_WAIT_RESPONSE application w p g s t d Hst).
    cbn [snd]. rewrite <- Hst. rewrite with_own_state.
    split; [reflexivity |]. exists []. rewrite app_nil_r.
    repeat split.
  - rewrite (listen_WAIT_QUERY application w p g s t d Hst).
    cbn [snd self calls]. rewrite <- Hst at 1. rewrite with_own_state.
    split; [reflexivity |]. eexists. split; [reflexivity |].
    split; reflexivity.
Qed.

(** One operation, with detached callbacks: which attributes it can write
    and which calls it can add to the log. *)
Lemma after_detached (o : Op) (w : World Ext Callable) :
  detached application ->
  _seed_key_valid (self (after application o w)) = _seed_key_valid (self w) /\
  _proceed_function (self (after application o w))
    = _proceed_function (self w) /\
  seed_security (self (after application o w)) =
    match o with
    | OpSetSeedKeyAlgorithm _ => true
    | _ => seed_security (self w)
    end /\
  _notify_query_received (self (after application o w)) =
    match o with
    | OpSetNotify f => Some f
    | _ => _notify_query_received (self w)
    end /\
  address (self (after application o w)) =
    match o with
    | OpRead a _ _ _ _ _ _ | OpWrite a _ _ _ _ =>
        if DMState_eqb (state (self w)) IDLE then Some a else address (self w)
    | _ => address (self w)
    end /\
  exists added,
    calls (after application o w) = calls w ++ added /\
    count_calls is_subscribe added = O /\
    count_calls is_unsubscribe added =
      match o with
      | OpDeliver _ _ _ _ _ =>
          if DMState_eqb (state (self w)) IDLE && negb (seed_security (self w))
          then 1%nat else O
      | OpRespond _ _ _ _ => 1%nat
      | _ => O
      end.
Proof.
  intros Hdet.
  destruct o as [p g s t d | pr dt er ed | a b c n z sg rw | a b c v z
                | f | f | f]; cbn [after].
  - destruct (listen_detached w p g s t d Hdet)
      as (Hself & added & Hcalls & Hsub & Hunsub).
    rewrite Hself. cbn [with_state _seed_key_valid _proceed_function
                        seed_security _notify_query_received address].
    do 5 (split; [reflexivity |]).
    exists added. split; [exact Hcalls |]. split; [exact Hsub |].
    rewrite Hunsub.
    destruct (state (self w)), (seed_security (self w)); reflexivity.
  - rewrite respond_run. cbn [snd self calls].
    do 5 (split; [reflexivity |]).
    eexists. split; [reflexivity |]. split; reflexivity.
  - destruct (DMState_eqb_spec (state (self w)) IDLE) as [Hst | Hst].
    + rewrite (read_from_IDLE w a b c n z sg rw Hst).
      destruct (fst (query_read _ _ _ _ _ _ _ _)); cbn [snd self calls];
        (do 5 (split; [reflexivity |]));
        eexists; (split; [reflexivity |]); split; reflexivity.
    + rewrite read_outside_IDLE by exact Hst. cbn [snd].
      do 5 (split; [reflexivity |]).
      exists []. rewrite app_nil_r. repeat split.
  - destruct (DMState_eqb_spec (state (self w)) IDLE) as [Hst | Hst].
    + rewrite (write_from_IDLE w a b c v z Hst).
      destruct (fst (query_write _ _ _ _ _ _)); cbn [snd self calls];
        (do 5 (split; [reflexivity |]));
        eexists; (split; [reflexivity |]); split; reflexivity.
    + rewrite write_outside_IDLE by exact Hst. cbn [snd].
      do 5 (split; [reflexivity |]).
      exists []. rewrite app_nil_r. repeat split.
  - do 5 (split; [reflexivity |]).
    eexists. split; [reflexivity |]. split; reflexivity.
  - do 5 (split; [reflexivity |]).
    eexists. split; [cbn; rewrite <- app_assoc; reflexivity |].
    split; reflexivity.
  - do 5 (split; [reflexivity |]).
    exists []. cbn. rewrite app_nil_r. repeat split.
Qed.

(** In the two waiting states an operation other than [respond] leaves the
    state alone. *)
Lemma after_waiting (o : Op) (w : World Ext Callable) :
  state (self w) = WAIT_QUERY \/ state (self w) = WAIT_RESPONSE ->
  is_respond o = false ->
  state (self (after application o w)) = state (self w).
Proof.
  intros Hst Ho.
  assert (Hbusy : state (self w) <> IDLE)
    by (destruct Hst as [H | H]; rewrite H; discriminate).
  destruct o as [p g s t d | pr dt er ed | a b c n z sg rw | a b c v z
                | f | f | f]; cbn [after]; try reflexivity.
  - destruct Hst as [Hst | Hst].
    + rewrite (listen_WAIT_QUERY application w p g s t d Hst). reflexivity.
    + rewrite (listen_WAIT_RESPONSE application w p g s t d Hst). reflexivity.
  - discriminate Ho.
  - rewrite read_outside_IDLE by exact Hbusy. reflexivity.
  - rewrite write_outside_IDLE by exact Hbusy. reflexivity.
Qed.

(** X1: started from [IDLE] with a query builder whose [write] returns,
    [write] returns nothing; the one call it makes is the query builder's
    [write] with the five arguments ([object_byte_size] being 1 when left
    out), made when the state is already [WAIT_QUERY] and [address] already
    holds the destination; the state it leaves is [IDLE]. *)
Theorem write_sends_values (w : World Ext Callable)
    (dest direct addr : Z) (values : list Z) (size : option Z) (e' : Ext) :
  state (self w) = IDLE ->
  query_write dest direct addr values (arg_or 1 size) (ext w) = (inr tt, e') ->
  exists during : MemoryAccess Callable,
    state during = WAIT_QUERY /\
    address during = Some dest /\
    write dest direct addr values size w =
      (Returned tt,
       mkWorld (with_state IDLE during) e'
         (calls w ++
            [(At during,
              CallQueryWrite dest direct addr values
                match size with Some z => z | None => 1 end)])) /\
    state (self (snd (write dest direct addr values size w))) = IDLE /\
    address (self (snd (write dest direct addr values size w))) = Some dest.
Proof.
  intros Hst Hq.
  exists (with_address dest (with_state WAIT_QUERY (self w))).
  rewrite (write_from_IDLE w dest direct addr values size Hst), Hq.
  cbn. repeat split.
Qed.

(** X2: an operation that finds the state [WAIT_QUERY] or [WAIT_RESPONSE]
    when it starts, as after a [read] or [write] whose query raised, leaves
    the state as it found it unless it is [respond]: this holds for any
    sequence of deliveries, reads, writes and configuration calls started
    there, and a [respond] after them sets [IDLE]. *)
Theorem started_while_waiting_keeps_state
    (ops : list Op) (w : World Ext Callable) :
  state (self w) = WAIT_QUERY \/ state (self w) = WAIT_RESPONSE ->
  Forall (fun o => is_respond o = false) ops ->
  state (self (run application ops w)) = state (self w) /\
  forall pr dt er ed,
    state (self (after application (OpRespond pr dt er ed)
                   (run application ops w))) = IDLE.
Proof.
  intros Hst Hops. split.
  - revert w Hst.
    induction Hops as [| o ops Ho _ IH]; intros w Hst; cbn [run].
    + reflexivity.
    + pose proof (after_waiting o w Hst Ho) as Hstep.
      rewrite IH by (rewrite Hstep; exact Hst).
      exact Hstep.
  - intros pr dt er ed. cbn [after]. apply respond_state.
Qed.

(** X3: messages delivered in [WAIT_RESPONSE], however many, are dropped:
    no attribute changes, no collaborator is called, nothing is logged. *)
Theorem deliveries_dropped_in_WAIT_RESPONSE
    (ops : list Op) (w : World Ext Callable) :
  state (self w) = WAIT_RESPONSE ->
  Forall (fun o => is_delivery o = true) ops ->
  run application ops w = w.
Proof.
  intros Hst Hops.
  induction Hops as [| o ops Ho _ IH]; cbn [run]; [reflexivity |].
  destruct o; try discriminate Ho. cbn [after].
  rewrite (listen_WAIT_RESPONSE application w _ _ _ _ _ Hst). exact IH.
Qed.

(** X4: with detached callbacks, no operation on a constructed object calls
    [subscribe]: over any sequence of operations the number of [subscribe]
    calls in the log stays what it was, which for a fresh object is the one
    call made by [__init__]. *)
Theorem never_subscribes_again (ops : list Op) :
  detached application ->
  (forall w : World Ext Callable,
     count_calls is_subscribe (calls (run application ops w))
       = count_calls is_subscribe (calls w)) /\
  (forall e : Ext,
     count_calls is_subscribe (calls (run application ops (__init__ e)))
       = 1%nat).
Proof.
  intros Hdet.
  assert (Hall : forall w : World Ext Callable,
            count_calls is_subscribe (calls (run application ops w))
              = count_calls is_subscribe (calls w)).
  { induction ops as [| o ops IH]; intros w; cbn [run]; [reflexivity |].
    rewrite IH.
    destruct (after_detached o w Hdet)
      as (_ & _ & _ & _ & _ & added & Hcalls & Hsub & _).
    rewrite Hcalls, count_calls_app, Hsub. apply Nat.add_0_r. }
  split; [exact Hall |].
  intros e. rewrite Hall. reflexivity.
Qed.

(** X5: with detached callbacks, [_seed_key_valid] and [_proceed_function]
    are written by no operation; on an object built by [__init__] they are
    [None] after any sequence of operations. *)
Theorem hooks_never_set (ops : list Op) :
  detached application ->
  (forall w : World Ext Callable,
     _seed_key_valid (self (run application ops w))
       = _seed_key_valid (self w) /\
     _proceed_function (self (run application ops w))
       = _proceed_function (self w)) /\
  (forall e : Ext,
     _seed_key_valid (self (run application ops (__init__ e))) = None /\
     _proceed_function (self (run application ops (__init__ e))) = None).
Proof.
  intros Hdet.
  assert (Hall : forall w : World Ext Callable,
            _seed_key_valid (self (run application ops w))
              = _seed_key_valid (self w) /\
            _proceed_function (self (run application ops w))
              = _proceed_function (self w)).
  { induction ops as [| o ops IH]; intros w; cbn [run]; [split; reflexivity |].
    destruct (IH (after application o w)) as [Hv Hp].
    destruct (after_detached o w Hdet) as (Hv' & Hp' & _).
    split; congruence. }
  split; [exact Hall |].
  intros e. destruct (Hall (__init__ e)) as [Hv Hp].
  rewrite Hv, Hp. split; reflexivity.
Qed.

(** X6: with detached callbacks, [set_seed_key_algorithm] is the only
    operation that turns [seed_security] on, and nothing turns it off: once
    on, it is on after any sequence of operations. *)
Theorem security_switched_on_only (w : World Ext Callable) :
  detached application ->
  (forall o : Op,
     seed_security (self w) = false ->
     seed_security (self (after application o w)) = true ->
     exists f, o = OpSetSeedKeyAlgorithm f) /\
  (forall f,
     seed_security (self (after application (OpSetSeedKeyAlgorithm f) w))
       = true) /\
  (forall ops : list Op,
     seed_security (self w) = true ->
     seed_security (self (run application ops w)) = true).
Proof.
  intros Hdet. split; [| split].
  - intros o Hoff Hon.
    destruct (after_detached o w Hdet) as (_ & _ & Hsec & _).
    rewrite Hsec in Hon.
    destruct o; try congruence. eexists; reflexivity.
  - intros f. reflexivity.
  - intros ops. revert w.
    induction ops as [| o ops IH]; intros w Hon; cbn [run]; [exact Hon |].
    apply IH.
    destruct (after_detached o w Hdet) as (_ & _ & Hsec & _).
    rewrite Hsec. destruct o; (exact Hon || reflexivity).
Qed.

(** X7: [set_seed_key_algorithm] hands the algorithm to the query builder
    and then to the responder, and a message delivered next, the state being
    [IDLE], is only parsed: the state becomes [REQUEST_STARTED], there is no
    [unsubscribe] and the notification callback is not called, whether one
    is set or not and whatever [seed_security] was before. *)
Theorem algorithm_then_delivery (w : World Ext Callable)
    (algorithm : Callable) p g s t d :
  state (self w) = IDLE ->
  _listen_for_dm14 application p g s t d
    (snd (set_seed_key_algorithm algorithm w)) =
    (Returned tt,
     mkWorld (with_state REQUEST_STARTED (with_seed_security true (self w)))
       (server_parse_dm14 p g s t d
          (server_set_seed_key_algorithm algorithm
             (query_set_seed_key_algorithm algorithm (ext w))))
       (calls w ++
          [(At (with_seed_security true (self w)),
            CallQuerySetAlgorithm algorithm);
           (At (with_seed_security true (self w)),
            CallServerSetAlgorithm algorithm);
           (At (with_state REQUEST_STARTED (with_seed_security true (self w))),
            CallParse p g s t d)])).
Proof.
  intros Hst.
  rewrite listen_IDLE_secured; [| exact Hst | reflexivity].
  cbn. rewrite <- !app_assoc. reflexivity.
Qed.

(** X8: [set_notify] calls no collaborator, and the callback it stores is
    the one a delivery calls: with security off and the state [IDLE], the
    message delivered next is parsed, [unsubscribe] is called, and the new
    callback, not one set earlier, is run on the world so reached. *)
Theorem notify_then_delivery (w : World Ext Callable)
    (notify : Callable) p g s t d :
  state (self w) = IDLE ->
  seed_security (self w) = false ->
  ext (snd (set_notify (Err := Err) notify w)) = ext w /\
  calls (snd (set_notify (Err := Err) notify w)) = calls w /\
  _listen_for_dm14 application p g s t d
    (snd (set_notify (Err := Err) notify w)) =
    application notify
      (mkWorld (with_state REQUEST_STARTED (with_notify notify (self w)))
         (ca_unsubscribe (server_parse_dm14 p g s t d (ext w)))
         (calls w ++
            [(At (with_state REQUEST_STARTED (with_notify notify (self w))),
              CallParse p g s t d);
             (At (with_state REQUEST_STARTED (with_notify notify (self w))),
              CallUnsubscribe);
             (At (with_state REQUEST_STARTED (with_notify notify (self w))),
              CallNotify notify)])).
Proof.
  intros Hst Hsec. split; [reflexivity |]. split; [reflexivity |].
  rewrite listen_IDLE_open; [| exact Hst | exact Hsec].
  rewrite notify_if_set_Some with (f := notify) by reflexivity.
  unfold call_notify, logged. cbn [snd set_notify update_self self ext calls].
  rewrite <- app_assoc. reflexivity.
Qed.

(** X9: with detached callbacks, [unsubscribe] is called by [respond], once
    per call and in every state, and by a delivery that finds the state
    [IDLE] and security off, once; by nothing else. *)
Theorem unsubscribe_accounting (o : Op) (w : World Ext Callable) :
  detached application ->
  count_calls is_unsubscribe (calls (after application o w)) =
    (count_calls is_unsubscribe (calls w) +
     match o with
     | OpDeliver _ _ _ _ _ =>
         if DMState_eqb (state (self w)) IDLE && negb (seed_security (self w))
         then 1 else 0
     | OpRespond _ _ _ _ => 1
     | _ => 0
     end)%nat.
Proof.
  intros Hdet.
  destruct (after_detached o w Hdet)
    as (_ & _ & _ & _ & _ & added & Hcalls & _ & Hunsub).
  rewrite Hcalls, count_calls_app, Hunsub. reflexivity.
Qed.

(** X10: with detached callbacks, a message delivered in [IDLE] takes the
    object to [REQUEST_STARTED], with or without security, and from there
    [read] raises the busy error and [write] returns at once; neither
    reaches the query builder or changes anything. *)
Theorem delivery_blocks_local_queries (w : World Ext Callable) p g s t d :
  detached application ->
  state (self w) = IDLE ->
  state (self (after application (OpDeliver p g s t d) w)) = REQUEST_STARTED /\
  (forall a b c n z sg rw,
     read a b c n z sg rw (after application (OpDeliver p g s t d) w) =
       (Raised (RuntimeWarning "Process already Running"),
        after application (OpDeliver p g s t d) w)) /\
  (forall a b c v z,
     write a b c v z (after application (OpDeliver p g s t d) w) =
       (Returned tt, after application (OpDeliver p g s t d) w)).
Proof.
  intros Hdet Hst.
  assert (Hrs : state (self (after application (OpDeliver p g s t d) w))
                = REQUEST_STARTED).
  { cbn [after].
    rewrite (proj1 (listen_detached w p g s t d Hdet)), Hst. reflexivity. }
  split; [exact Hrs |]. split.
  - intros. apply read_outside_IDLE. rewrite Hrs. discriminate.
  - intros. apply write_outside_IDLE. rewrite Hrs. discriminate.
Qed.

(** X11: with detached callbacks, [address] is written only by a [read] or
    [write] that finds the state [IDLE], which stores its destination; a
    [read] or [write] in any other state, a delivery, [respond] and the
    configuration calls leave it as it was. *)
Theorem address_written_only_from_IDLE (o : Op) (w : World Ext Callable) :
  detached application ->
  address (self (after application o w)) =
    match o with
    | OpRead dest _ _ _ _ _ _ | OpWrite dest _ _ _ _ =>
        match state (self w) with
        | IDLE => Some dest
        | _ => address (self w)
        end
    | _ => address (self w)
    end.
Proof.
  intros Hdet.
  destruct (after_detached o w Hdet) as (_ & _ & _ & _ & Haddr & _).
  rewrite Haddr. destruct o; try reflexivity;
    destruct (state (self w)); reflexivity.
Qed.

End Lifetime.

(** * The lifetime properties on the test rig *)

Lemma quiet_detached : detached Stub.quiet.
Proof. intros f w. split; reflexivity. Qed.

(** [write_sends_values] on the rig. *)
Lemma write_sends_values_witness :
  state (self (Stub.rigged IDLE false None (Stub.bare 1 (inr [])))) = IDLE /\
  query_write 32 0 4096 [1; 2] 1
    (ext (Stub.rigged IDLE false None (Stub.bare 1 (inr []))))
    = (inr tt, ext (Stub.rigged IDLE false None (Stub.bare 1 (inr [])))) /\
  fst (write 32 0 4096 [1; 2] None
         (Stub.rigged IDLE false None (Stub.bare 1 (inr []))))
    = Returned tt /\
  address (self (snd (write 32 0 4096 [1; 2] None
         (Stub.rigged IDLE false None (Stub.bare 1 (inr []))))))
    = Some 32.
Proof.
  assert (Hq : query_write 32 0 4096 [1; 2] (arg_or 1 None)
                 (ext (Stub.rigged IDLE false None (Stub.bare 1 (inr []))))
               = (inr tt,
                  ext (Stub.rigged IDLE false None (Stub.bare 1 (inr [])))))
    by reflexivity.
  split; [reflexivity |]. split; [exact Hq |].
  destruct (write_sends_values
              (Stub.rigged IDLE false None (Stub.bare 1 (inr [])))
              32 0 4096 [1; 2] None _ eq_refl Hq)
    as (during & _ & _ & Hrun & _ & Haddr).
  split; [rewrite Hrun; reflexivity | exact Haddr].
Defined.

(** [started_while_waiting_keeps_state] on the rig, on the world a [read]
    leaves when the query builder's exchange times out. *)
Lemma started_while_waiting_keeps_state_witness :
  fst (read 32 0 4096 4 None None None
         (Stub.rigged IDLE false None (Stub.bare 1 (inl "timeout"%string))))
    = Raised (CollaboratorError "timeout"%string) /\
  (state (self (snd (read 32 0 4096 4 None None None
            (Stub.rigged IDLE false None
               (Stub.bare 1 (inl "timeout"%string)))))) = WAIT_QUERY \/
   state (self (snd (read 32 0 4096 4 None None None
            (Stub.rigged IDLE false None
               (Stub.bare 1 (inl "timeout"%string)))))) = WAIT_RESPONSE) /\
  Forall (fun o : @Op nat => is_respond o = false)
    [OpDeliver 6 55552 128 0 [x01]; OpRead 48 0 0 1 None None None;
     OpWrite 48 0 0 [5] None; OpSetNotify 3%nat] /\
  state (self (run Stub.quiet
                 [OpDeliver 6 55552 128 0 [x01]; OpRead 48 0 0 1 None None None;
                  OpWrite 48 0 0 [5] None; OpSetNotify 3%nat]
                 (snd (read 32 0 4096 4 None None None
                         (Stub.rigged IDLE false None
                            (Stub.bare 1 (inl "timeout"%string)))))))
    = WAIT_QUERY /\
  state (self (after Stub.quiet (OpRespond false None None None)
                 (run Stub.quiet
                    [OpDeliver 6 55552 128 0 [x01];
                     OpRead 48 0 0 1 None None None;
                     OpWrite 48 0 0 [5] None; OpSetNotify 3%nat]
                    (snd (read 32 0 4096 4 None None None
                            (Stub.rigged IDLE false None
                               (Stub.bare 1 (inl "timeout"%string))))))))
    = IDLE.
Proof.
  assert (Hops : Forall (fun o : @Op nat => is_respond o = false)
            [OpDeliver 6 55552 128 0 [x01]; OpRead 48 0 0 1 None None None;
             OpWrite 48 0 0 [5] None; OpSetNotify 3%nat])
    by (repeat constructor).
  assert (Hst : state (self (snd (read 32 0 4096 4 None None None
                     (Stub.rigged IDLE false None
                        (Stub.bare 1 (inl "timeout"%string)))))) = WAIT_QUERY \/
                state (self (snd (read 32 0 4096 4 None None None
                     (Stub.rigged IDLE false None
                        (Stub.bare 1 (inl "timeout"%string)))))) = WAIT_RESPONSE)
    by (left; reflexivity).
  split; [reflexivity |]. split; [exact Hst |].
  split; [exact Hops |].
  destruct (started_while_waiting_keeps_state Stub.quiet _
              (snd (read 32 0 4096 4 None None None
                      (Stub.rigged IDLE false None
                         (Stub.bare 1 (inl "timeout"%string)))))
              Hst Hops)
    as [Hkept Hrespond].
  split; [exact Hkept | exact (Hrespond false None None None)].
Defined.

(** [deliveries_dropped_in_WAIT_RESPONSE] on the rig. *)
Lemma deliveries_dropped_in_WAIT_RESPONSE_witness :
  state (self (Stub.rigged WAIT_RESPONSE true (Some 7%nat)
                 (Stub.bare 1 (inr [])))) = WAIT_RESPONSE /\
  Forall (fun o : @Op nat => is_delivery o = true)
    [OpDeliver 6 55552 128 0 [x01]; OpDeliver 6 55552 128 1 [x02]] /\
  run Stub.quiet
    [OpDeliver 6 55552 128 0 [x01]; OpDeliver 6 55552 128 1 [x02]]
    (Stub.rigged WAIT_RESPONSE true (Some 7%nat) (Stub.bare 1 (inr [])))
    = Stub.rigged WAIT_RESPONSE true (Some 7%nat) (Stub.bare 1 (inr [])).
Proof.
  assert (Hops : Forall (fun o : @Op nat => is_delivery o = true)
            [OpDeliver 6 55552 128 0 [x01];
             OpDeliver 6 55552 128 1 [x02]])
    by (repeat constructor).
  split; [reflexivity |]. split; [exact Hops |].
  exact (deliveries_dropped_in_WAIT_RESPONSE Stub.quiet _
           (Stub.rigged WAIT_RESPONSE true (Some 7%nat) (Stub.bare 1 (inr [])))
           eq_refl Hops).
Defined.

(** [never_subscribes_again] on the rig: a delivery, the answer to it, a
    second delivery and a read. *)
Lemma never_subscribes_again_witness :
  detached Stub.quiet /\
  count_calls is_subscribe
    (calls (run Stub.quiet
              [OpDeliver 6 55552 128 0 [x01]; OpRespond true None None None;
               OpDeliver 6 55552 128 1 [x02]; OpRead 32 0 4096 4 None None None]
              (__init__ (Stub.bare 1 (inr [10; 20; 30; 40])))))
    = 1%nat.
Proof.
  split; [exact quiet_detached |].
  exact (proj2 (never_subscribes_again Stub.quiet _ quiet_detached)
           (Stub.bare 1 (inr [10; 20; 30; 40]))).
Defined.

(** [hooks_never_set] on the rig. *)
Lemma hooks_never_set_witness :
  detached Stub.quiet /\
  _seed_key_valid
    (self (run Stub.quiet
             [OpSetSeedKeyAlgorithm 1%nat; OpSetSeedGenerator 2%nat;
              OpSetNotify 3%nat; OpDeliver 6 55552 128 0 [x01]]
             (__init__ (Stub.bare 1 (inr [])))))
    = None /\
  _proceed_function
    (self (run Stub.quiet
             [OpSetSeedKeyAlgorithm 1%nat; OpSetSeedGenerator 2%nat;
              OpSetNotify 3%nat; OpDeliver 6 55552 128 0 [x01]]
             (__init__ (Stub.bare 1 (inr [])))))
    = None.
Proof.
  split; [exact quiet_detached |].
  exact (proj2 (hooks_never_set Stub.quiet _ quiet_detached)
           (Stub.bare 1 (inr []))).
Defined.

(** [security_switched_on_only] on the rig. *)
Lemma security_switched_on_only_witness :
  detached Stub.quiet /\
  seed_security
    (self (run Stub.quiet
             [OpRespond true None None None; OpSetSeedGenerator 2%nat;
              OpRead 32 0 4096 4 None None None]
             (Stub.rigged WAIT_RESPONSE true None (Stub.bare 1 (inr [])))))
    = true.
Proof.
  split; [exact quiet_detached |].
  destruct (security_switched_on_only Stub.quiet
              (Stub.rigged WAIT_RESPONSE true None (Stub.bare 1 (inr [])))
              quiet_detached)
    as (_ & _ & Hstays).
  exact (Hstays _ eq_refl).
Defined.

(** [algorithm_then_delivery] on the rig: a callback is set and security
    was off, yet the object is still subscribed after the message. *)
Lemma algorithm_then_delivery_witness :
  state (self (Stub.rigged IDLE false (Some 7%nat) (Stub.bare 1 (inr []))))
    = IDLE /\
  state (self (snd (Stub.deliver Stub.quiet
                      (snd (set_seed_key_algorithm 1%nat
                              (Stub.rigged IDLE false (Some 7%nat)
                                 (Stub.bare 1 (inr []))))))))
    = REQUEST_STARTED /\
  Stub.listening
    (ext (snd (Stub.deliver Stub.quiet
                 (snd (set_seed_key_algorithm 1%nat
                         (Stub.rigged IDLE false (Some 7%nat)
                            (Stub.bare 1 (inr []))))))))
    = true /\
  count_notify
    (calls (snd (Stub.deliver Stub.quiet
                   (snd (set_seed_key_algorithm 1%nat
                           (Stub.rigged IDLE false (Some 7%nat)
                              (Stub.bare 1 (inr []))))))))
    = O.
Proof.
  split; [reflexivity |].
  unfold Stub.deliver.
  rewrite (algorithm_then_delivery Stub.quiet
             (Stub.rigged IDLE false (Some 7%nat) (Stub.bare 1 (inr [])))
             1%nat 6 55552 128 0 [x01] eq_refl).
  repeat split.
Defined.

(** [notify_then_delivery] on the rig: callback 9 replaces callback 7. *)
Lemma notify_then_delivery_witness :
  state (self (Stub.rigged IDLE false (Some 7%nat) (Stub.bare 1 (inr []))))
    = IDLE /\
  seed_security
    (self (Stub.rigged IDLE false (Some 7%nat) (Stub.bare 1 (inr []))))
    = false /\
  exists seen : World Stub.Rig nat,
    Stub.deliver Stub.quiet
      (snd (set_notify (Err := string) 9%nat
              (Stub.rigged IDLE false (Some 7%nat) (Stub.bare 1 (inr [])))))
      = Stub.quiet 9%nat seen /\
    count_notify (calls seen) = 1%nat.
Proof.
  split; [reflexivity |]. split; [reflexivity |].
  destruct (notify_then_delivery Stub.quiet
              (Stub.rigged IDLE false (Some 7%nat) (Stub.bare 1 (inr [])))
              9%nat 6 55552 128 0 [x01] eq_refl eq_refl)
    as (_ & _ & Hrun).
  eexists. split; [exact Hrun | reflexivity].
Defined.

(** [unsubscribe_accounting] on the rig: [respond] on a fresh object. *)
Lemma unsubscribe_accounting_witness :
  detached Stub.quiet /\
  count_calls is_unsubscribe
    (calls (after Stub.quiet (OpRespond false None None None)
              (__init__ (Stub.bare 1 (inr [])))))
    = 1%nat.
Proof.
  split; [exact quiet_detached |].
  exact (unsubscribe_accounting Stub.quiet (OpRespond false None None None)
           (__init__ (Stub.bare 1 (inr []))) quiet_detached).
Defined.

(** [delivery_blocks_local_queries] on the rig. *)
Lemma delivery_blocks_local_queries_witness :
  detached Stub.quiet /\
  state (self (Stub.rigged IDLE true None (Stub.bare 2 (inr [10])))) = IDLE /\
  fst (read 32 0 4096 1 None None None
         (after Stub.quiet (OpDeliver 6 55552 128 0 [x01])
            (Stub.rigged IDLE true None (Stub.bare 2 (inr [10])))))
    = Raised (RuntimeWarning "Process already Running").
Proof.
  split; [exact quiet_detached |]. split; [reflexivity |].
  destruct (delivery_blocks_local_queries Stub.quiet
              (Stub.rigged IDLE true None (Stub.bare 2 (inr [10])))
              6 55552 128 0 [x01] quiet_detached eq_refl)
    as (_ & Hread & _).
  rewrite Hread. reflexivity.
Defined.

(** [address_written_only_from_IDLE] on the rig: a busy read to another
    destination leaves the destination of the query in flight. *)
Lemma address_written_only_from_IDLE_witness :
  detached Stub.quiet /\
  address (self (after Stub.quiet (OpRead 48 0 0 1 None None None)
                   Stub.mid_query))
    = Some 32.
Proof.
  split; [exact quiet_detached |].
  exact (address_written_only_from_IDLE Stub.quiet
           (OpRead 48 0 0 1 None None None) Stub.mid_query quiet_detached).
Defined.
